(** * orders_etl: the order pipeline of [src/orders_etl.py]

  The script is a chain of dataframe operators.  Every operator is
  embedded as a function on lists of rows; a column is a record field, a
  nullable value is an [option], and a condition is a three-valued
  [option bool].  Integer columns carry the width the engine gives them
  (int: 32 bits, bigint: 64 bits) with the wrap-around of arithmetic
  written out.  The engine runs with its default, permissive settings: a
  failed parse or cast is a null and integer arithmetic wraps. *)

From Stdlib Require Import ZArith QArith Qreduction PrimFloat SpecFloat FloatOps Ascii.
From stdpp Require Import base list strings option.

Local Open Scope Z_scope.

(** ** Column values and expressions *)

Module Sql.

(** Two's-complement wrap-around of an integer to [bits] bits. *)
Definition wrap (bits : Z) (z : Z) : Z :=
  (z + 2 ^ (bits - 1)) mod 2 ^ bits - 2 ^ (bits - 1).

Definition int_min : Z := - 2 ^ 31.
Definition int_max : Z := 2 ^ 31 - 1.
Definition long_min : Z := - 2 ^ 63.
Definition long_max : Z := 2 ^ 63 - 1.

Definition in_int (z : Z) : bool := (int_min <=? z) && (z <=? int_max).
Definition in_long (z : Z) : bool := (long_min <=? z) && (z <=? long_max).

(** [a * b] on int columns. *)
Definition int_mul (a b : option Z) : option Z :=
  match a, b with
  | Some x, Some y => Some (wrap 32 (x * y))
  | _, _ => None
  end.

(** [a - b] on bigint columns. *)
Definition long_sub (a b : option Z) : option Z :=
  match a, b with
  | Some x, Some y => Some (wrap 64 (x - y))
  | _, _ => None
  end.

(** [a > b]; an int operand is widened to bigint, which keeps its value. *)
Definition gt (a b : option Z) : option bool :=
  match a, b with
  | Some x, Some y => Some (y <? x)
  | _, _ => None
  end.

(** [a == b] on string columns. *)
Definition eq_string (a b : option string) : option bool :=
  match a, b with
  | Some x, Some y => Some (String.eqb x y)
  | _, _ => None
  end.

(** [a & b]: false wins over null. *)
Definition and (a b : option bool) : option bool :=
  match a, b with
  | Some false, _ => Some false
  | _, Some false => Some false
  | Some true, Some true => Some true
  | _, _ => None
  end.

(** A row passes [where], a join condition or a [when] only on true. *)
Definition holds (c : option bool) : bool :=
  match c with
  | Some true => true
  | _ => false
  end.

(** [when(c, t).otherwise(e)] *)
Definition when_otherwise {A : Type} (c : option bool) (t e : A) : A :=
  if holds c then t else e.

(** A timestamp is a bigint of microseconds since the epoch;
    [unix_timestamp] is its whole seconds, rounded down. *)
Definition micros_per_second : Z := 1000000.
Definition micros_per_day : Z := 86400 * micros_per_second.

Definition unix_timestamp (ts : option Z) : option Z :=
  (λ m, m `div` micros_per_second) <$> ts.

End Sql.

(** ** The engine

  What the script takes from the engine and does not define: the
  double-precision operations, the grammars of the texts it parses, and
  the session time zone. *)

Class Engine (D : Type) := {
(** bigint to double *)
d_of_long : Z → D;
d_add : D → D → D;
d_div : D → D → D;
d_eqb : D → D → bool;
d_leb : D → D → bool;
(** the instant a text denotes, in microseconds since the epoch *)
parse_timestamp : string → option Z;
(** the integer a text denotes *)
parse_integral : string → option Z;
parse_double : string → option D;
(** offset of local time from UTC at an instant, in microseconds *)
zone_offset : Z → Z
}.

Section Pipeline.

Context {D : Type} `{Engine D}.

(** [to_timestamp(col)]: null for a null or malformed text, and for an
    instant that a timestamp cannot hold. *)
Definition to_timestamp (s : option string) : option Z :=
  match s with
  | Some text =>
      match parse_timestamp text with
      | Some m => if Sql.in_long m then Some m else None
      | None => None
      end
  | None => None
  end.

(** [col.cast("int")] *)
Definition cast_int (s : option string) : option Z :=
  match s with
  | Some text =>
      match parse_integral text with
      | Some n => if Sql.in_int n then Some n else None
      | None => None
      end
  | None => None
  end.

(** [col.cast("double")] *)
Definition cast_double (s : option string) : option D :=
  match s with
  | Some text => parse_double text
  | None => None
  end.

(** [col.cast("date")] of a timestamp: the local day, counted from the
    epoch. *)
Definition cast_date (ts : option Z) : option Z :=
  (λ m, (m + zone_offset m) `div` Sql.micros_per_day) <$> ts.

(** [a / b] on doubles: null on a null operand or a zero divisor. *)
Definition sql_div (a b : option D) : option D :=
  match a, b with
  | Some x, Some y => if d_eqb y (d_of_long 0) then None else Some (d_div x y)
  | _, _ => None
  end.

(** *** Rows *)

(** A row of [bronze/orders/*/*.csv]: every column is a nullable text. *)
Record raw_order := {
  raw_order_id : option string;
  raw_restaurant_id : option string;
  raw_order_ts : option string;
  raw_delivered_ts : option string;
  raw_order_value : option string;
  raw_promised_mins : option string;
  raw_status : option string;
  raw_city : option string
}.

(** A row of the normalized orders. *)
Record order := {
  order_id : option string;
  o_restaurant_id : option string;
  order_ts : option Z;
  delivered_ts : option Z;
  order_value : option D;
  promised_mins : option Z;
  status : option string;
  o_city : option string;
  late_delivery : option Z;
  dt : option Z
}.

(** A row of [bronze/restaurants/*.csv]. *)
Record restaurant := {
  r_restaurant_id : option string;
  r_name : option string;
  r_cuisine : option string
}.

(** *** Ingest and normalize (lines 15-25) *)

(** The expression of the [late_delivery] column, over the columns as
    they are after the four casts. *)
Definition late_delivery_expr
    (status : option string) (delivered_ts order_ts promised_mins : option Z)
    : option Z :=
  Sql.when_otherwise
    (Sql.and
       (Sql.eq_string status (Some "DELIVERED"%string))
       (Sql.gt
          (Sql.long_sub (Sql.unix_timestamp delivered_ts)
                        (Sql.unix_timestamp order_ts))
          (Sql.int_mul promised_mins (Some 60))))
    (Some 1) (Some 0).

Definition normalize_order (r : raw_order) : order :=
  let order_ts := to_timestamp (raw_order_ts r) in
  let delivered_ts := to_timestamp (raw_delivered_ts r) in
  let order_value := cast_double (raw_order_value r) in
  let promised_mins := cast_int (raw_promised_mins r) in
  let late_delivery :=
    late_delivery_expr (raw_status r) delivered_ts order_ts promised_mins in
  let dt := cast_date order_ts in
  {| order_id := raw_order_id r;
     o_restaurant_id := raw_restaurant_id r;
     order_ts := order_ts;
     delivered_ts := delivered_ts;
     order_value := order_value;
     promised_mins := promised_mins;
     status := raw_status r;
     o_city := raw_city r;
     late_delivery := late_delivery;
     dt := dt |}.

Definition orders (raw : list raw_order) : list order :=
  normalize_order <$> raw.

(** *** Stored artifacts (lines 27-31)

    [write.mode("overwrite").partitionBy(c)] replaces the artifact by one
    directory per value of [c], null included; reading the artifact back
    takes the rows of every directory and the value of [c] from the
    directory. *)

Definition group_by {K A : Type} `{EqDecision K}
    (key : A → K) (rows : list A) : list (K * list A) :=
  (λ k, (k, filter (λ x, key x = k) rows)) <$> remove_dups (key <$> rows).

Definition write_partitioned {K A : Type} `{EqDecision K}
    (key : A → K) (rows : list A) : list (K * list A) :=
  group_by key rows.

Definition with_dt (d : option Z) (o : order) : order :=
  {| order_id := order_id o;
     o_restaurant_id := o_restaurant_id o;
     order_ts := order_ts o;
     delivered_ts := delivered_ts o;
     order_value := order_value o;
     promised_mins := promised_mins o;
     status := status o;
     o_city := o_city o;
     late_delivery := late_delivery o;
     dt := d |}.

Definition read_orders (parts : list (option Z * list order)) : list order :=
  parts ≫= (λ p, with_dt p.1 <$> p.2).

(** *** Enrich (lines 33-35) *)

(** A row of the left join: the order's columns and, when a restaurant
    matched, the restaurant's; otherwise those are null. *)
Record enriched_order := {
  o : order;
  r : option restaurant
}.

Definition r_name_of (e : enriched_order) : option string :=
  match r e with Some x => r_name x | None => None end.

Definition r_cuisine_of (e : enriched_order) : option string :=
  match r e with Some x => r_cuisine x | None => None end.

Definition join_matches (ord : order) (rs : list restaurant) : list restaurant :=
  filter (λ x, Sql.holds (Sql.eq_string (o_restaurant_id ord) (r_restaurant_id x))) rs.

Definition left_join_row (rs : list restaurant) (ord : order)
    : list enriched_order :=
  match join_matches ord rs with
  | [] => [ {| o := ord; r := None |} ]
  | ms => (λ x, {| o := ord; r := Some x |}) <$> ms
  end.

Definition orders_enriched (orders_silver : list order)
    (restaurants_silver : list restaurant) : list enriched_order :=
  orders_silver ≫= left_join_row restaurants_silver.

(** *** Aggregate (lines 37-47) *)

Definition non_null {A : Type} (xs : list (option A)) : list A := omap id xs.

(** [count(lit(1))]: the rows of the group, as a bigint. *)
Definition agg_count {A : Type} (rows : list A) : Z :=
  Sql.wrap 64 (Z.of_nat (length rows)).

(** [sum] of an int column: a bigint; nulls are skipped, and the sum of
    no value is null. *)
Definition agg_sum_long (xs : list (option Z)) : option Z :=
  match non_null xs with
  | [] => None
  | vs => Some (fold_left (λ acc v, Sql.wrap 64 (acc + v)) vs 0)
  end.

(** [sum] of a double column. *)
Definition agg_sum_double (xs : list (option D)) : option D :=
  match non_null xs with
  | [] => None
  | vs => Some (fold_left d_add vs (d_of_long 0))
  end.

(** [avg] of a double column: the sum of the values that are not null
    over their number. *)
Definition agg_avg (xs : list (option D)) : option D :=
  let vs := non_null xs in
  sql_div (Some (fold_left d_add vs (d_of_long 0)))
          (Some (d_of_long (Sql.wrap 64 (Z.of_nat (length vs))))).

(** [(unix_timestamp("delivered_ts") - unix_timestamp("order_ts"))/60.0] *)
Definition delivery_mins (e : enriched_order) : option D :=
  sql_div
    (d_of_long <$> Sql.long_sub (Sql.unix_timestamp (delivered_ts (o e)))
                                (Sql.unix_timestamp (order_ts (o e))))
    (Some (d_of_long 60)).

Definition metric_key : Type :=
  option Z * option string * option string * option string * option string.

(** [groupBy("dt", "o.restaurant_id", "r.name", "r.cuisine", "o.city")] *)
Definition key_of (e : enriched_order) : metric_key :=
  (dt (o e), o_restaurant_id (o e), r_name_of e, r_cuisine_of e, o_city (o e)).

(** A row of the daily metrics. *)
Record metric := {
  m_dt : option Z;
  m_restaurant_id : option string;
  m_name : option string;
  m_cuisine : option string;
  m_city : option string;
  orders_delivered : Z;
  gmv : option D;
  avg_delivery_mins : option D;
  late_count : option Z;
  late_rate : option D
}.

Definition is_delivered (e : enriched_order) : bool :=
  Sql.holds (Sql.eq_string (status (o e)) (Some "DELIVERED"%string)).

(** [.agg(...)] followed by [.withColumn("late_rate", ...)] on one group. *)
Definition agg (k : metric_key) (rows : list enriched_order) : metric :=
  let '(k_dt, k_restaurant_id, k_name, k_cuisine, k_city) := k in
  let orders_delivered := agg_count rows in
  let late_count := agg_sum_long ((λ e, late_delivery (o e)) <$> rows) in
  {| m_dt := k_dt;
     m_restaurant_id := k_restaurant_id;
     m_name := k_name;
     m_cuisine := k_cuisine;
     m_city := k_city;
     orders_delivered := orders_delivered;
     gmv := agg_sum_double ((λ e, order_value (o e)) <$> rows);
     avg_delivery_mins := agg_avg (delivery_mins <$> rows);
     late_count := late_count;
     late_rate :=
       sql_div (d_of_long <$> late_count) (Some (d_of_long orders_delivered)) |}.

Definition daily_rest_metrics (enriched : list enriched_order) : list metric :=
  (λ g, agg g.1 g.2) <$> group_by key_of (filter is_delivered enriched).

(** *** The run

    The three artifacts the script writes, and its stages as steps on
    them.  Every write replaces the artifact. *)
Record storage := {
  silver_orders : list (option Z * list order);
  silver_restaurants : list restaurant;
  gold_daily_restaurant_metrics : list (option Z * list metric)
}.

Definition ingest_normalize (raw_orders : list raw_order)
    (raw_restaurants : list restaurant) (st : storage) : storage :=
  {| silver_orders := write_partitioned dt (orders raw_orders);
     silver_restaurants := raw_restaurants;
     gold_daily_restaurant_metrics := gold_daily_restaurant_metrics st |}.

Definition enrich (st : storage) : list enriched_order :=
  orders_enriched (read_orders (silver_orders st)) (silver_restaurants st).

Definition aggregate (st : storage) : storage :=
  {| silver_orders := silver_orders st;
     silver_restaurants := silver_restaurants st;
     gold_daily_restaurant_metrics :=
       write_partitioned m_dt (daily_rest_metrics (enrich st)) |}.

Definition run (raw_orders : list raw_order)
    (raw_restaurants : list restaurant) (st : storage) : storage :=
  aggregate (ingest_normalize raw_orders raw_restaurants st).

(** The rows of the gold artifact. *)
Definition gold_rows (st : storage) : list metric :=
  gold_daily_restaurant_metrics st ≫= snd.

(** *** Reading an output row

    The key of a daily-metrics row, the enriched rows of its group, and
    the plain sum of integers the measures are compared with. *)
Definition metric_key_of (m : metric) : metric_key :=
  (m_dt m, m_restaurant_id m, m_name m, m_cuisine m, m_city m).

Definition group_of (m : metric) (enriched : list enriched_order)
    : list enriched_order :=
  filter (λ e, key_of e = metric_key_of m) (filter is_delivered enriched).



End Pipeline.

Arguments order : clear implicits.
Arguments enriched_order : clear implicits.
Arguments metric : clear implicits.
Arguments storage : clear implicits.

(** ** Laws of the double-precision operations

    What the bounds on [late_rate] need of the engine's doubles: the
    conversion of a bigint and the division by a positive number are
    monotone, a positive bigint does not convert to zero, and [0 / n] and
    [n / n] are exact.  Correctly rounded binary64 arithmetic has them. *)


(** ** Two engines to run the pipeline on

    The grammars below are one choice of what the engine accepts
    ([yyyy-MM-dd HH:mm:ss] timestamps in a UTC session, decimal numbers);
    they serve to evaluate the pipeline on concrete rows.  The theorems
    hold for every engine. *)

Module Sample.

Definition digit (a : ascii) : option Z :=
  let n := Z.of_nat (nat_of_ascii a) in
  if (48 <=? n) && (n <=? 57) then Some (n - 48) else None.

Fixpoint digits_from (acc : Z) (s : string) : option Z :=
  match s with
  | EmptyString => Some acc
  | String a rest =>
      match digit a with
      | Some d => digits_from (10 * acc + d) rest
      | None => None
      end
  end.

(** A non-empty run of decimal digits. *)
Definition natural (s : string) : option Z :=
  match s with
  | EmptyString => None
  | _ => digits_from 0 s
  end.

(** An optional sign and a natural. *)
Definition integral (s : string) : option Z :=
  match s with
  | String "-"%char rest => Z.opp <$> natural rest
  | _ => natural s
  end.

(** Days from the epoch to a day of the proleptic Gregorian calendar. *)
Definition days_from_civil (y m d : Z) : Z :=
  let y' := if m <=? 2 then y - 1 else y in
  let era := y' `div` 400 in
  let yoe := y' - era * 400 in
  let mp := if 2 <? m then m - 3 else m + 9 in
  let doy := (153 * mp + 2) `div` 5 + d - 1 in
  let doe := yoe * 365 + yoe `div` 4 - yoe `div` 100 + doy in
  era * 146097 + doe - 719468.

Definition field (from len : nat) (s : string) : option Z :=
  natural (String.substring from len s).

Definition separator (at_ : nat) (c : ascii) (s : string) : bool :=
  match String.get at_ s with
  | Some a => Ascii.eqb a c
  | None => false
  end.

(** [yyyy-MM-dd HH:mm:ss], read as UTC. *)
Definition timestamp (s : string) : option Z :=
  if negb (Nat.eqb (String.length s) 19) then None else
  if negb (separator 4 "-" s && separator 7 "-" s && separator 10 " " s
           && separator 13 ":" s && separator 16 ":" s) then None else
  match field 0 4 s, field 5 2 s, field 8 2 s,
        field 11 2 s, field 14 2 s, field 17 2 s with
  | Some y, Some mo, Some d, Some h, Some mi, Some sec =>
      if (1 <=? mo) && (mo <=? 12) && (1 <=? d) && (d <=? 31)
         && (h <=? 23) && (mi <=? 59) && (sec <=? 59)
      then Some ((days_from_civil y mo d * 86400 + h * 3600 + mi * 60 + sec)
                 * Sql.micros_per_second)
      else None
  | _, _, _, _, _, _ => None
  end.

Fixpoint split_at_dot (s : string) : string * option string :=
  match s with
  | EmptyString => (EmptyString, None)
  | String "."%char rest => (EmptyString, Some rest)
  | String a rest =>
      let '(whole, frac) := split_at_dot rest in (String a whole, frac)
  end.

(** A decimal number [ddd] or [ddd.ddd], optionally signed, as the
    quotient of two integers. *)
Definition decimal {D : Type} (of_long : Z → D) (div : D → D → D)
    (s : string) : option D :=
  let '(neg, body) :=
    match s with
    | String "-"%char rest => (true, rest)
    | _ => (false, s)
    end in
  let '(whole, frac) := split_at_dot body in
  match natural whole, frac with
  | Some w, None => Some (of_long (if neg then - w else w))
  | Some w, Some f =>
      match natural f with
      | Some n =>
          let scale := 10 ^ Z.of_nat (String.length f) in
          let v := w * scale + n in
          Some (div (of_long (if neg then - v else v)) (of_long scale))
      | None => None
      end
  | None, _ => None
  end.

(** binary64, rounding to nearest even. *)
Definition float_of_long (z : Z) : float :=
  SF2Prim (binary_normalize 53 1024 z 0 false).

#[export] Instance float64 : Engine float := {|
  d_of_long := float_of_long;
  d_add := PrimFloat.add;
  d_div := PrimFloat.div;
  d_eqb := PrimFloat.eqb;
  d_leb := PrimFloat.leb;
  parse_timestamp := timestamp;
  parse_integral := integral;
  parse_double := decimal float_of_long PrimFloat.div;
  zone_offset := λ _, 0
|}.

(** Exact rationals in lowest terms. *)
#[export] Instance exact : Engine Q := {|
  d_of_long := inject_Z;
  d_add := λ x y, Qred (x + y);
  d_div := λ x y, Qred (x / y);
  d_eqb := Qeq_bool;
  d_leb := Qle_bool;
  parse_timestamp := timestamp;
  parse_integral := integral;
  parse_double := decimal inject_Z (λ x y, Qred (x / y));
  zone_offset := λ _, 0
|}.

Definition raw (ts delivered value mins st rid city : string) : raw_order :=
  {| raw_order_id := None;
     raw_restaurant_id := Some rid;
     raw_order_ts := Some ts;
     raw_delivered_ts := Some delivered;
     raw_order_value := Some value;
     raw_promised_mins := Some mins;
     raw_status := Some st;
     raw_city := Some city |}.

Definition restaurants : list restaurant :=
  [ {| r_restaurant_id := Some "r1"%string;
       r_name := Some "Spice Hub"%string;
       r_cuisine := Some "Indian"%string |};
    {| r_restaurant_id := Some "r2"%string;
       r_name := Some "Roma"%string;
       r_cuisine := Some "Italian"%string |} ].

(** Two delivered orders of one restaurant on one day, the first late. *)
Definition two_delivered : list raw_order :=
  [ raw "2024-03-01 12:00:00" "2024-03-01 12:31:00" "10.0" "30"
        "DELIVERED" "r1" "Pune";
    raw "2024-03-01 13:00:00" "2024-03-01 13:20:00" "20.0" "30"
        "DELIVERED" "r1" "Pune" ].

(** The same, and: a delivered order whose delivery time is not a
    timestamp, a cancelled order, and a delivered order of an unknown
    restaurant whose order time is not a timestamp. *)
Definition mixed_day : list raw_order :=
  two_delivered ++
  [ raw "2024-03-01 14:00:00" "unknown" "5.5" "30" "DELIVERED" "r1" "Pune";
    raw "2024-03-01 15:00:00" "" "7.0" "20" "CANCELLED" "r2" "Pune";
    raw "yesterday" "2024-03-01 16:10:00" "8.0" "20" "DELIVERED" "r9" "Goa" ].

(** An order without a restaurant identifier, and restaurant rows of which
    one has no identifier. *)
Definition anonymous_orders : list raw_order :=
  [ {| raw_order_id := Some "o9"%string;
       raw_restaurant_id := None;
       raw_order_ts := Some "2024-03-02 09:00:00"%string;
       raw_delivered_ts := Some "2024-03-02 09:25:00"%string;
       raw_order_value := Some "12.5"%string;
       raw_promised_mins := Some "30"%string;
       raw_status := Some "DELIVERED"%string;
       raw_city := Some "Pune"%string |};
    raw "2024-03-02 10:00:00" "2024-03-02 10:45:00" "9.0" "30"
        "DELIVERED" "r2" "Pune" ].

Definition restaurants_with_unnamed : list restaurant :=
  {| r_restaurant_id := None;
     r_name := Some "Pop-up"%string;
     r_cuisine := None |} :: restaurants.

Definition empty {D : Type} : storage D :=
  {| silver_orders := [];
     silver_restaurants := [];
     gold_daily_restaurant_metrics := [] |}.

End Sample.


(** * Properties *)

(** ** Integer widths *)

Lemma wrap_id (bits z : Z) :
  0 < bits → - 2 ^ (bits - 1) ≤ z < 2 ^ (bits - 1) → Sql.wrap bits z = z.
Proof.
  intros Hbits Hz. unfold Sql.wrap.
  assert (Hpow : 2 ^ bits = 2 * 2 ^ (bits - 1)).
  { rewrite <- Z.pow_succ_r by lia. f_equal. lia. }
  rewrite Z.mod_small by lia. lia.
Qed.


Lemma wrap_long (z : Z) : Sql.long_min ≤ z ≤ Sql.long_max → Sql.wrap 64 z = z.
Proof.
  unfold Sql.long_min, Sql.long_max. intros Hz.
  apply wrap_id; [lia|]. change (64 - 1) with 63. lia.
Qed.

Lemma in_int_spec (z : Z) : Sql.in_int z = true ↔ Sql.int_min ≤ z ≤ Sql.int_max.
Proof. unfold Sql.in_int. rewrite andb_true_iff, !Z.leb_le. tauto. Qed.

Lemma in_long_spec (z : Z) : Sql.in_long z = true ↔ Sql.long_min ≤ z ≤ Sql.long_max.
Proof. unfold Sql.in_long. rewrite andb_true_iff, !Z.leb_le. tauto. Qed.

(** The difference of the whole seconds of two timestamps is far inside a
    bigint: the subtraction of line 22 never wraps. *)
Lemma seconds_sub_no_wrap (d t : Z) :
  Sql.long_min ≤ d ≤ Sql.long_max → Sql.long_min ≤ t ≤ Sql.long_max →
  Sql.wrap 64 (d `div` Sql.micros_per_second - t `div` Sql.micros_per_second)
  = d `div` Sql.micros_per_second - t `div` Sql.micros_per_second.
Proof.
  unfold Sql.long_min, Sql.long_max, Sql.micros_per_second. intros Hd Ht.
  apply wrap_long. unfold Sql.long_min, Sql.long_max.
  assert ((- 2 ^ 63) `div` 1000000 ≤ d `div` 1000000 ≤ (2 ^ 63 - 1) `div` 1000000)
    by (split; apply Z.div_le_mono; lia).
  assert ((- 2 ^ 63) `div` 1000000 ≤ t `div` 1000000 ≤ (2 ^ 63 - 1) `div` 1000000)
    by (split; apply Z.div_le_mono; lia).
  change ((- 2 ^ 63) `div` 1000000) with (-9223372036855) in *.
  change ((2 ^ 63 - 1) `div` 1000000) with 9223372036854 in *.
  lia.
Qed.

Section Normalize.

Context {D : Type} `{Engine D}.

Lemma to_timestamp_range (s : option string) (m : Z) :
  to_timestamp s = Some m → Sql.long_min ≤ m ≤ Sql.long_max.
Proof.
  unfold to_timestamp. destruct s as [text|]; [|done].
  destruct (parse_timestamp text) as [m'|]; [|done].
  destruct (Sql.in_long m') eqn:Hin; [|done].
  intros [= <-]. by apply in_long_spec.
Qed.

Lemma cast_int_range (s : option string) (n : Z) :
  cast_int s = Some n → Sql.int_min ≤ n ≤ Sql.int_max.
Proof.
  unfold cast_int. destruct s as [text|]; [|done].
  destruct (parse_integral text) as [n'|]; [|done].
  destruct (Sql.in_int n') eqn:Hin; [|done].
  intros [= <-]. by apply in_int_spec.
Qed.

(** The column takes no other value than 0 and 1. *)
Lemma late_delivery_expr_total (st : option string) (d t p : option Z) :
  late_delivery_expr st d t p = Some 0 ∨ late_delivery_expr st d t p = Some 1.
Proof.
  unfold late_delivery_expr, Sql.when_otherwise.
  destruct (Sql.holds _); auto.
Qed.

(** On a delivered row with its three operands present, the column is 1
    exactly when the elapsed whole seconds exceed the 32-bit product. *)
Lemma late_delivery_expr_delivered (d t p : Z) :
  Sql.long_min ≤ d ≤ Sql.long_max → Sql.long_min ≤ t ≤ Sql.long_max →
  late_delivery_expr (Some "DELIVERED"%string) (Some d) (Some t) (Some p)
  = if Sql.wrap 32 (p * 60)
         <? d `div` Sql.micros_per_second - t `div` Sql.micros_per_second
    then Some 1 else Some 0.
Proof.
  intros Hd Ht. unfold late_delivery_expr. cbn.
  rewrite seconds_sub_no_wrap by done.
  unfold Sql.when_otherwise. cbn.
  by destruct (_ <? _).
Qed.

(** A status other than [DELIVERED], null included, gives 0. *)
Lemma late_delivery_expr_not_delivered (st : option string) (d t p : option Z) :
  st ≠ Some "DELIVERED"%string → late_delivery_expr st d t p = Some 0.
Proof.
  intros Hst. unfold late_delivery_expr.
  generalize (Sql.gt (Sql.long_sub (Sql.unix_timestamp d) (Sql.unix_timestamp t))
                     (Sql.int_mul p (Some 60))).
  intros c.
  assert (Sql.eq_string st (Some "DELIVERED"%string) ≠ Some true) as Hne.
  { destruct st as [s|]; cbn; [|done].
    intros [= Heq]. apply String.eqb_eq in Heq. congruence. }
  by destruct (Sql.eq_string st _) as [[]|], c as [[]|].
Qed.

(** A null operand of the comparison gives 0, whatever the status. *)
Lemma late_delivery_expr_null (st : option string) (d t p : option Z) :
  d = None ∨ t = None ∨ p = None → late_delivery_expr st d t p = Some 0.
Proof.
  intros Hnull. unfold late_delivery_expr, Sql.when_otherwise.
  assert (Sql.gt (Sql.long_sub (Sql.unix_timestamp d) (Sql.unix_timestamp t))
                 (Sql.int_mul p (Some 60)) = None) as ->.
  { destruct Hnull as [->|[->| ->]]; cbn.
    - done.
    - by destruct d.
    - by destruct (Sql.long_sub _ _). }
  by destruct (Sql.eq_string _ _) as [[]|].
Qed.

(** ** The [late_delivery] column *)


(** C2: a row whose status is not [DELIVERED] (null included) has
    [late_delivery] 0, whatever its timestamps and promised minutes are,
    null or not. *)
Theorem late_delivery_zero_unless_delivered (row : raw_order) :
  raw_status row ≠ Some "DELIVERED"%string →
  late_delivery (normalize_order row) = Some 0.
Proof.
  intros Hst. cbn [normalize_order late_delivery].
  by apply late_delivery_expr_not_delivered.
Qed.

(** C9: when [delivered_ts], [order_ts] or [promised_mins] is null after
    parsing, [late_delivery] is 0, also on a [DELIVERED] row; and on every
    row the column is 0 or 1, never null. *)
Theorem late_delivery_null_operand_zero (row : raw_order) :
  (to_timestamp (raw_delivered_ts row) = None
   ∨ to_timestamp (raw_order_ts row) = None
   ∨ cast_int (raw_promised_mins row) = None →
   late_delivery (normalize_order row) = Some 0)
  ∧ (late_delivery (normalize_order row) = Some 0
     ∨ late_delivery (normalize_order row) = Some 1).
Proof.
  split.
  - intros Hnull. cbn [normalize_order late_delivery].
    by apply late_delivery_expr_null.
  - apply late_delivery_expr_total.
Qed.

End Normalize.



Lemma late_delivery_zero_unless_delivered_witness :
  late_delivery
    (normalize_order (H := Sample.float64)
       {| raw_order_id := Some "o7"%string;
          raw_restaurant_id := Some "r1"%string;
          raw_order_ts := Some "2024-03-01 12:00:00"%string;
          raw_delivered_ts := None;
          raw_order_value := Some "10.0"%string;
          raw_promised_mins := Some "30"%string;
          raw_status := Some "CANCELLED"%string;
          raw_city := Some "Pune"%string |}) = Some 0.
Proof.
  apply (late_delivery_zero_unless_delivered (H := Sample.float64)).
  vm_compute. discriminate.
Defined.

Lemma late_delivery_null_operand_zero_witness :
  late_delivery
    (normalize_order (H := Sample.float64)
       (Sample.raw "2024-03-01 12:00:00" "not yet" "10.0" "30"
                   "DELIVERED" "r1" "Pune")) = Some 0.
Proof.
  apply (late_delivery_null_operand_zero (H := Sample.float64)).
  left. vm_compute. reflexivity.
Defined.

(** ** Grouping and partitioned artifacts *)

Section GroupBy.

Context {K A : Type} `{EqDecision K} (key : A → K).

Lemma elem_of_group_by (k : K) (xs rows : list A) :
  (k, xs) ∈ group_by key rows
  ↔ k ∈ key <$> rows ∧ xs = filter (λ x, key x = k) rows.
Proof.
  unfold group_by. rewrite list_elem_of_fmap. split.
  - intros (k' & [= -> ->] & Hk). split; [|done].
    by rewrite elem_of_remove_dups in Hk.
  - intros [Hk ->]. exists k. by rewrite elem_of_remove_dups.
Qed.

(** No group is empty. *)
Lemma group_by_nonempty (k : K) (xs rows : list A) :
  (k, xs) ∈ group_by key rows → xs ≠ [].
Proof.
  rewrite elem_of_group_by, list_elem_of_fmap. intros [(x & -> & Hx) ->] Hnil.
  exact (filter_nil_not_elem_of _ _ x Hnil eq_refl Hx).
Qed.


(** One group per key. *)
Lemma group_by_keys_NoDup (rows : list A) : NoDup ((group_by key rows).*1).
Proof.
  unfold group_by. rewrite <- list_fmap_compose.
  rewrite (list_fmap_ext _ id) by done. rewrite list_fmap_id.
  apply NoDup_remove_dups.
Qed.

Lemma filter_key_split (k : K) (ks : list K) (rows : list A) :
  k ∉ ks →
  filter (λ x, key x = k) rows ++ filter (λ x, key x ∈ ks) rows
  ≡ₚ filter (λ x, key x ∈ k :: ks) rows.
Proof.
  intros Hk. induction rows as [|x rows IH]; [done|].
  rewrite !filter_cons.
  destruct (decide (key x = k)) as [Heq|Hne].
  - rewrite decide_False by (by rewrite Heq).
    rewrite decide_True by (rewrite Heq; left).
    cbn. by f_equiv.
  - destruct (decide (key x ∈ ks)) as [Hin|Hnin].
    + rewrite decide_True by (by right).
      rewrite <- Permutation_middle. by f_equiv.
    + rewrite decide_False; [done|].
      rewrite elem_of_cons. tauto.
Qed.

Lemma bind_filter_keys (ks : list K) (rows : list A) :
  NoDup ks →
  ks ≫= (λ k, filter (λ x, key x = k) rows)
  ≡ₚ filter (λ x, key x ∈ ks) rows.
Proof.
  induction 1 as [|k ks Hk Hnd IH].
  - cbn. induction rows as [|x rows IHrows]; [done|].
    rewrite filter_cons, decide_False; [done|]. apply not_elem_of_nil.
  - rewrite bind_cons, IH. by apply filter_key_split.
Qed.

(** The groups, taken together, are the rows. *)
Lemma group_by_flatten (rows : list A) : group_by key rows ≫= snd ≡ₚ rows.
Proof.
  unfold group_by. rewrite list_fmap_bind.
  etrans; [apply (bind_filter_keys _ rows), NoDup_remove_dups|].
  generalize (remove_dups (key <$> rows)),
    (λ y (Hy : y ∈ rows),
       proj2 (elem_of_remove_dups (key <$> rows) (key y))
             (list_elem_of_fmap_2 key rows y Hy)).
  intros ks Hks. induction rows as [|x rows IH]; [done|].
  rewrite filter_cons, decide_True by (apply Hks; left).
  f_equiv. apply IH. intros y Hy. apply Hks. by right.
Qed.

Lemma elem_of_group_by_flatten (x : A) (rows : list A) :
  x ∈ group_by key rows ≫= snd ↔ x ∈ rows.
Proof. by rewrite group_by_flatten. Qed.

End GroupBy.

Section Artifacts.

Context {D : Type} `{Engine D}.

Lemma with_dt_same (ord : order D) : with_dt (dt ord) ord = ord.
Proof. by destruct ord. Qed.

Lemma read_orders_keyed (parts : list (option Z * list (order D))) :
  (∀ k rows ord, (k, rows) ∈ parts → ord ∈ rows → dt ord = k) →
  read_orders parts = parts ≫= snd.
Proof.
  unfold read_orders. induction parts as [|[k rows] parts IH]; [done|].
  intros Hkey. rewrite !bind_cons. f_equal.
  - cbn. rewrite <- (list_fmap_id rows) at 2.
    apply list_fmap_ext. intros i ord Hord%list_elem_of_lookup_2.
    rewrite <- (Hkey k rows ord); [apply with_dt_same|left|done].
  - apply IH. intros k' rows' ord Hin. apply Hkey. by right.
Qed.

(** Reading a partitioned artifact back gives the rows written, in the
    order of the directories. *)
Lemma read_orders_write_partitioned (rows : list (order D)) :
  read_orders (write_partitioned dt rows) ≡ₚ rows.
Proof.
  unfold write_partitioned. rewrite read_orders_keyed.
  - apply group_by_flatten.
  - intros k xs ord Hin Hord. apply elem_of_group_by in Hin as [_ ->].
    by apply list_elem_of_filter in Hord as [? _].
Qed.

(** ** The partition column *)


(** ** Re-running the first stage *)


End Artifacts.

(** ** The join *)

Section Enrich.

Context {D : Type} `{Engine D}.

(** The restaurants an order joins with: those with its identifier, when
    it has one. *)
Lemma elem_of_join_matches (ord : order D) (rs : list restaurant) (x : restaurant) :
  x ∈ join_matches ord rs
  ↔ x ∈ rs ∧ ∃ id, o_restaurant_id ord = Some id ∧ r_restaurant_id x = Some id.
Proof.
  unfold join_matches. rewrite list_elem_of_filter.
  destruct (o_restaurant_id ord) as [a|], (r_restaurant_id x) as [b|]; cbn;
    try (split; [intros [[] _] | intros [_ (? & ? & ?)]; done]).
  destruct (String.eqb_spec a b) as [->|Hne]; cbn.
  - split; [intros [_ ?]; eauto | intros [? _]; done].
  - split; [intros [[] _] | intros [_ (? & [= ->] & [= <-])]; done].
Qed.



End Enrich.

(** ** The exact engine has the laws *)


(** ** Aggregates *)






Section Aggregate.

Context {D : Type} `{Engine D}.

Lemma metric_key_of_agg (k : metric_key) (rows : list (enriched_order D)) :
  metric_key_of (agg k rows) = k.
Proof. by destruct k as [[[[? ?] ?] ?] ?]. Qed.

Lemma is_delivered_status (e : enriched_order D) :
  is_delivered e ↔ status (o e) = Some "DELIVERED"%string.
Proof.
  unfold is_delivered. destruct (status (o e)) as [s|]; cbn; [|done].
  destruct (String.eqb_spec s "DELIVERED") as [->|Hne]; cbn; [done|].
  split; [done|]. by intros [= ->].
Qed.

Lemma elem_of_group_of (m : metric D) (es : list (enriched_order D))
    (e : enriched_order D) :
  e ∈ group_of m es
  ↔ e ∈ es ∧ status (o e) = Some "DELIVERED"%string ∧ key_of e = metric_key_of m.
Proof.
  unfold group_of. rewrite !list_elem_of_filter, is_delivered_status. tauto.
Qed.


(** An output row is the aggregate of its group, and its group is not
    empty. *)
Lemma elem_of_daily_rest_metrics (m : metric D) (es : list (enriched_order D)) :
  m ∈ daily_rest_metrics es
  ↔ m = agg (metric_key_of m) (group_of m es) ∧ group_of m es ≠ [].
Proof.
  unfold daily_rest_metrics. rewrite list_elem_of_fmap. split.
  - intros ([k rows] & -> & Hin). cbn [fst snd].
    pose proof (group_by_nonempty _ _ _ _ Hin) as Hne.
    apply elem_of_group_by in Hin as [_ ->].
    unfold group_of. by rewrite metric_key_of_agg.
  - intros [Hm Hne].
    exists (metric_key_of m, group_of m es). split; [done|].
    apply elem_of_group_by. split; [|done].
    destruct (group_of m es) as [|e rows] eqn:Hrows; [done|].
    assert (He : e ∈ group_of m es) by (rewrite Hrows; left).
    unfold group_of in He. apply list_elem_of_filter in He as [<- He].
    by apply list_elem_of_fmap_2.
Qed.

Lemma elem_of_orders_enriched (e : enriched_order D) (os : list (order D))
    (rs : list restaurant) :
  e ∈ orders_enriched os rs → o e ∈ os.
Proof.
  unfold orders_enriched. rewrite list_elem_of_bind.
  intros (ord & He & Hord). unfold left_join_row in He.
  destruct (join_matches ord rs) as [|x ms].
  - by apply list_elem_of_singleton in He as ->.
  - by apply list_elem_of_fmap in He as (y & -> & _).
Qed.


(** The rows the second stage reads are the normalized rows. *)
Lemma elem_of_silver_read_back (raw_orders : list raw_order)
    (raw_restaurants : list restaurant) (st : storage D) (ord : order D) :
  ord ∈ read_orders (silver_orders (ingest_normalize raw_orders raw_restaurants st))
  ↔ ∃ row, ord = normalize_order row ∧ row ∈ raw_orders.
Proof.
  cbn [ingest_normalize silver_orders].
  rewrite read_orders_write_partitioned. apply list_elem_of_fmap.
Qed.

Lemma enriched_from_raw (raw_orders : list raw_order)
    (raw_restaurants : list restaurant) (st : storage D) (e : enriched_order D) :
  e ∈ enrich (ingest_normalize raw_orders raw_restaurants st) →
  ∃ row, o e = normalize_order row ∧ row ∈ raw_orders.
Proof.
  intros He%elem_of_orders_enriched. by apply elem_of_silver_read_back in He.
Qed.

(** The gold artifact holds the rows of [daily_rest_metrics]. *)
Lemma elem_of_gold_rows (raw_orders : list raw_order)
    (raw_restaurants : list restaurant) (st : storage D) (m : metric D) :
  m ∈ gold_rows (run raw_orders raw_restaurants st)
  ↔ m ∈ daily_rest_metrics
          (enrich (ingest_normalize raw_orders raw_restaurants st)).
Proof.
  unfold gold_rows, run. cbn [aggregate gold_daily_restaurant_metrics].
  apply elem_of_group_by_flatten.
Qed.

(** ** Null grouping keys *)


(** ** Bounds of the daily metrics *)



End Aggregate.

Section Metrics.

Context {D : Type} `{Engine D}.


Lemma gmv_agg (k : metric_key) (rows : list (enriched_order D)) :
  gmv (agg k rows) = agg_sum_double ((λ e, order_value (o e)) <$> rows).
Proof. by destruct k as [[[[? ?] ?] ?] ?]. Qed.



Context `{!EngineLaws D}.






End Metrics.

(** ** The measures of a group *)


(** ** The average delivery time *)


(** ** The theorems on the sample day *)







(** In binary64 the rates of the sample day are 1/3, rounded to the nearest
    double, and 0. *)
Example late_rate_float64_sample :
  late_rate <$> gold_rows (run (H := Sample.float64) Sample.mixed_day
                               Sample.restaurants Sample.empty)
  = [ Some 0x1.5555555555555p-2%float; Some 0%float ].
Proof. by vm_compute. Qed.

(** * Further properties of the script *)

(** ** The [late_delivery] column, on every row *)

Section LateDelivery.

Context {D : Type} `{Engine D}.

(** The expression is 1 exactly on a delivered row with its three operands
    present and the elapsed whole seconds above the 32-bit product. *)
Lemma late_delivery_expr_one_iff (st : option string) (d t p : option Z) :
  (∀ d0, d = Some d0 → Sql.long_min ≤ d0 ≤ Sql.long_max) →
  (∀ t0, t = Some t0 → Sql.long_min ≤ t0 ≤ Sql.long_max) →
  late_delivery_expr st d t p = Some 1
  ↔ st = Some "DELIVERED"%string
    ∧ ∃ d0 t0 p0, d = Some d0 ∧ t = Some t0 ∧ p = Some p0
        ∧ Sql.wrap 32 (p0 * 60)
          < d0 `div` Sql.micros_per_second - t0 `div` Sql.micros_per_second.
Proof.
  intros Hd Ht. split.
  - intros Hone.
    destruct (decide (st = Some "DELIVERED"%string)) as [->|Hst];
      [|by rewrite late_delivery_expr_not_delivered in Hone].
    destruct d as [d0|]; [|by rewrite late_delivery_expr_null in Hone; auto].
    destruct t as [t0|]; [|by rewrite late_delivery_expr_null in Hone; auto].
    destruct p as [p0|]; [|by rewrite late_delivery_expr_null in Hone; auto].
    rewrite late_delivery_expr_delivered in Hone by auto.
    split; [done|]. exists d0, t0, p0. split_and!; try done.
    by destruct (Z.ltb_spec (Sql.wrap 32 (p0 * 60))
                  (d0 `div` Sql.micros_per_second
                   - t0 `div` Sql.micros_per_second)).
  - intros (-> & d0 & t0 & p0 & -> & -> & -> & Hlt).
    rewrite late_delivery_expr_delivered by auto.
    by destruct (Z.ltb_spec (Sql.wrap 32 (p0 * 60))
                  (d0 `div` Sql.micros_per_second
                   - t0 `div` Sql.micros_per_second)); [|lia].
Qed.



(** X3: a later delivery is never less late: of two rows with the same
    status, order time and promised minutes, if the one delivered earlier
    is late then so is the other, also where the product wraps. *)
Theorem late_delivery_monotone (row row' : raw_order) (d d' : Z) :
  raw_status row' = raw_status row →
  to_timestamp (raw_order_ts row') = to_timestamp (raw_order_ts row) →
  cast_int (raw_promised_mins row') = cast_int (raw_promised_mins row) →
  to_timestamp (raw_delivered_ts row) = Some d →
  to_timestamp (raw_delivered_ts row') = Some d' →
  d ≤ d' →
  late_delivery (normalize_order row) = Some 1 →
  late_delivery (normalize_order row') = Some 1.
Proof.
  intros Hst Ht Hp Hd Hd' Hle. cbn [normalize_order late_delivery].
  rewrite Hst, Ht, Hp, Hd, Hd'.
  pose proof (to_timestamp_range _ _ Hd) as Rd.
  pose proof (to_timestamp_range _ _ Hd') as Rd'.
  rewrite !late_delivery_expr_one_iff
    by (intros ? E; first [by eapply to_timestamp_range
                          | by injection E as <-]).
  intros (Hdel & d0 & t0 & p0 & [= <-] & Ht0 & Hp0 & Hlt).
  split; [done|]. exists d', t0, p0. split_and!; try done.
  assert (d `div` Sql.micros_per_second ≤ d' `div` Sql.micros_per_second)
    by (apply Z.div_le_mono; [done|lia]).
  lia.
Qed.

End LateDelivery.

(** ** The join, row by row *)

Section JoinRows.

Context {D : Type} `{Engine D}.

(** Where the restaurant columns of an enriched row come from. *)
Lemma enriched_restaurant_origin (os : list (order D)) (rs : list restaurant)
    (e : enriched_order D) :
  e ∈ orders_enriched os rs →
  match r e with
  | Some x =>
      x ∈ rs ∧ ∃ id, o_restaurant_id (o e) = Some id
                     ∧ r_restaurant_id x = Some id
  | None =>
      ∀ x id, x ∈ rs → o_restaurant_id (o e) = Some id →
              r_restaurant_id x ≠ Some id
  end.
Proof.
  unfold orders_enriched. rewrite list_elem_of_bind.
  intros (ord & He & Hord). unfold left_join_row in He.
  destruct (join_matches ord rs) as [|x ms] eqn:Hms.
  - apply list_elem_of_singleton in He as ->. cbn.
    intros x id Hx Hid Hrid.
    assert (Hin : x ∈ join_matches ord rs)
      by (apply elem_of_join_matches; eauto).
    rewrite Hms in Hin. by apply elem_of_nil in Hin.
  - apply list_elem_of_fmap in He as (y & -> & Hy). cbn.
    rewrite <- Hms in Hy. by apply elem_of_join_matches in Hy.
Qed.

(** X4: the rows of the join are exactly these: an order with a
    restaurant row that carries the same, non-null identifier; and an order
    with null restaurant columns when no restaurant row does. *)
Theorem elem_of_orders_enriched_iff (os : list (order D)) (rs : list restaurant)
    (e : enriched_order D) :
  e ∈ orders_enriched os rs
  ↔ o e ∈ os
    ∧ match r e with
      | Some x =>
          x ∈ rs ∧ ∃ id, o_restaurant_id (o e) = Some id
                         ∧ r_restaurant_id x = Some id
      | None =>
          ∀ x id, x ∈ rs → o_restaurant_id (o e) = Some id →
                  r_restaurant_id x ≠ Some id
      end.
Proof.
  split.
  - intros He. split;
      [by eapply elem_of_orders_enriched | by eapply enriched_restaurant_origin].
  - unfold orders_enriched. rewrite list_elem_of_bind.
    destruct e as [ord [x|]]; cbn.
    + intros (Hord & Hx & Hid). exists ord. split; [|done].
      assert (Hin : x ∈ join_matches ord rs) by by apply elem_of_join_matches.
      unfold left_join_row. destruct (join_matches ord rs) as [|y ms] eqn:Hms.
      * by apply elem_of_nil in Hin.
      * by apply (list_elem_of_fmap_2 (λ x, {| o := ord; r := Some x |})).
    + intros (Hord & Hnone). exists ord. split; [|done].
      unfold left_join_row. destruct (join_matches ord rs) as [|y ms] eqn:Hms.
      * left.
      * assert (Hin : y ∈ join_matches ord rs) by (rewrite Hms; left).
        apply elem_of_join_matches in Hin as (Hy & id & Hid & Hrid).
        by destruct (Hnone y id).
Qed.

(** X5: null is no identifier: an order whose [restaurant_id] is null gets
    null restaurant columns, also when a restaurant row has a null
    identifier, and no restaurant row with a null identifier is ever
    joined. *)
Theorem null_restaurant_id_never_joins (os : list (order D))
    (rs : list restaurant) (e : enriched_order D) :
  e ∈ orders_enriched os rs →
  (o_restaurant_id (o e) = None → r e = None)
  ∧ (∀ x, r e = Some x → r_restaurant_id x ≠ None).
Proof.
  unfold orders_enriched. rewrite list_elem_of_bind.
  intros (ord & He & _). unfold left_join_row in He.
  destruct (join_matches ord rs) as [|x ms] eqn:Hms.
  - by apply list_elem_of_singleton in He as ->.
  - apply list_elem_of_fmap in He as (y & -> & Hy). cbn.
    rewrite <- Hms in Hy.
    apply elem_of_join_matches in Hy as (_ & id & Hid & Hrid).
    split; [by rewrite Hid|]. intros ? [= <-]. by rewrite Hrid.
Qed.




End JoinRows.

(** ** The artifacts of a run *)

Section RunArtifacts.

Context {D : Type} `{Engine D}.

Lemma gold_rows_permutation (raw_orders : list raw_order)
    (raw_restaurants : list restaurant) (st : storage D) :
  gold_rows (run raw_orders raw_restaurants st)
  ≡ₚ daily_rest_metrics (enrich (ingest_normalize raw_orders raw_restaurants st)).
Proof.
  unfold gold_rows, run. cbn [aggregate gold_daily_restaurant_metrics].
  apply group_by_flatten.
Qed.

Lemma daily_rest_metrics_keys (es : list (enriched_order D)) :
  metric_key_of <$> daily_rest_metrics es
  = (group_by key_of (filter is_delivered es)).*1.
Proof.
  unfold daily_rest_metrics. rewrite <- list_fmap_compose.
  apply list_fmap_ext. intros i [k rows] _. apply metric_key_of_agg.
Qed.


(** The delivered enriched row behind an output row. *)
Lemma gold_row_member (raw_orders : list raw_order)
    (raw_restaurants : list restaurant) (st : storage D) (m : metric D) :
  m ∈ gold_rows (run raw_orders raw_restaurants st) →
  ∃ e row,
    e ∈ enrich (ingest_normalize raw_orders raw_restaurants st)
    ∧ key_of e = metric_key_of m
    ∧ o e = normalize_order row
    ∧ row ∈ raw_orders
    ∧ raw_status row = Some "DELIVERED"%string.
Proof.
  intros [_ Hne]%elem_of_gold_rows%elem_of_daily_rest_metrics.
  destruct (group_of m _) as [|e rows] eqn:Hrows; [done|].
  assert (He : e ∈ group_of m
                 (enrich (ingest_normalize raw_orders raw_restaurants st)))
    by (rewrite Hrows; left).
  apply elem_of_group_of in He as (He & Hst & Hkey).
  destruct (enriched_from_raw _ _ _ _ He) as (row & Hoe & Hrow).
  exists e, row. split_and!; try done.
  by rewrite Hoe in Hst.
Qed.


(** X8: the gold artifact holds at most one row per key
    [(dt, restaurant_id, name, cuisine, city)]. *)
Theorem gold_one_row_per_key (raw_orders : list raw_order)
    (raw_restaurants : list restaurant) (st : storage D) :
  NoDup (metric_key_of <$> gold_rows (run raw_orders raw_restaurants st)).
Proof.
  rewrite gold_rows_permutation, daily_rest_metrics_keys.
  apply group_by_keys_NoDup.
Qed.


(** X10: every row of the gold artifact comes from a raw order with status
    [DELIVERED]: it has that order's day, restaurant identifier and city,
    and its [name] and [cuisine] are those of a restaurant row with that
    identifier, or null when no restaurant row carries it. *)
Theorem gold_row_origin (raw_orders : list raw_order)
    (raw_restaurants : list restaurant) (st : storage D) (m : metric D) :
  m ∈ gold_rows (run raw_orders raw_restaurants st) →
  ∃ row,
    row ∈ raw_orders
    ∧ raw_status row = Some "DELIVERED"%string
    ∧ m_dt m = cast_date (to_timestamp (raw_order_ts row))
    ∧ m_restaurant_id m = raw_restaurant_id row
    ∧ m_city m = raw_city row
    ∧ ((m_name m = None ∧ m_cuisine m = None
        ∧ ∀ x id, x ∈ raw_restaurants → raw_restaurant_id row = Some id →
                  r_restaurant_id x ≠ Some id)
       ∨ ∃ x id, x ∈ raw_restaurants
                 ∧ raw_restaurant_id row = Some id
                 ∧ r_restaurant_id x = Some id
                 ∧ m_name m = r_name x ∧ m_cuisine m = r_cuisine x).
Proof.
  intros Hm.
  destruct (gold_row_member _ _ _ _ Hm) as (e & row & He & Hkey & Hoe & Hrow & Hst).
  exists row. unfold key_of, metric_key_of in Hkey. rewrite Hoe in Hkey.
  cbn [normalize_order dt o_restaurant_id o_city] in Hkey.
  injection Hkey as Hdt Hid Hname Hcuisine Hcity.
  split_and!; try done.
  unfold enrich in He. cbn [ingest_normalize silver_restaurants] in He.
  apply enriched_restaurant_origin in He as Hr.
  unfold r_name_of in Hname. unfold r_cuisine_of in Hcuisine.
  rewrite Hoe in Hr. cbn [normalize_order o_restaurant_id] in Hr.
  destruct (r e) as [x|].
  - right. destruct Hr as (Hx & id & Hoid & Hrid). by exists x, id.
  - left. done.
Qed.

End RunArtifacts.

(** ** Totals over the gold artifact *)







Section Totals.

Context {D : Type} `{Engine D}.





End Totals.

(** ** Null measures *)

Lemma non_null_nil_iff {A : Type} (xs : list (option A)) :
  non_null xs = [] ↔ ∀ x, x ∈ xs → x = None.
Proof.
  unfold non_null. induction xs as [|[v|] xs IH]; cbn.
  - split; [|done]. intros _ x Hx. by apply elem_of_nil in Hx.
  - split; [done|]. intros Hall. by discriminate (Hall (Some v)); left.
  - rewrite IH. split.
    + intros Hall x [->|Hx]%elem_of_cons; auto.
    + intros Hall x Hx. apply Hall. by right.
Qed.

Section NullMeasures.

Context {D : Type} `{Engine D}.

(** X12: [gmv] is null exactly when every order of the group has a null
    [order_value]; one parsed value is enough for a number. *)
Theorem gmv_null_iff (raw_orders : list raw_order)
    (raw_restaurants : list restaurant) (st : storage D) (m : metric D) :
  m ∈ gold_rows (run raw_orders raw_restaurants st) →
  gmv m = None
  ↔ ∀ e, e ∈ group_of m (enrich (ingest_normalize raw_orders raw_restaurants st)) →
         order_value (o e) = None.
Proof.
  intros [Hagg _]%elem_of_gold_rows%elem_of_daily_rest_metrics.
  rewrite Hagg at 1. rewrite gmv_agg. unfold agg_sum_double.
  transitivity (non_null ((λ e, order_value (o e))
                  <$> group_of m (enrich (ingest_normalize raw_orders
                                            raw_restaurants st))) = []).
  { by destruct (non_null _). }
  rewrite non_null_nil_iff. split.
  - intros Hall e He. apply Hall. by apply (list_elem_of_fmap_2 (λ e, order_value (o e))).
  - intros Hall x (e & -> & He)%list_elem_of_fmap. by apply Hall.
Qed.

Context `{!EngineLaws D}.


End NullMeasures.

(** ** What the gold artifact does not depend on *)






Section Independence.

Context {D : Type} `{Engine D}.









End Independence.

(** ** The further properties on the sample days *)


Lemma late_delivery_monotone_witness :
  late_delivery
    (normalize_order (H := Sample.float64)
       (Sample.raw "2024-03-01 12:00:00" "2024-03-01 12:40:00" "10.0" "30"
                   "DELIVERED" "r1" "Pune")) = Some 1.
Proof.
  apply (late_delivery_monotone (H := Sample.float64)
           (Sample.raw "2024-03-01 12:00:00" "2024-03-01 12:31:00" "10.0"
                       "30" "DELIVERED" "r1" "Pune")
           (Sample.raw "2024-03-01 12:00:00" "2024-03-01 12:40:00" "10.0"
                       "30" "DELIVERED" "r1" "Pune")
           1709296260000000 1709296800000000);
    [reflexivity | reflexivity | reflexivity | reflexivity | reflexivity
    | vm_compute; discriminate | reflexivity].
Defined.

Lemma null_restaurant_id_never_joins_witness :
  Forall (λ e : enriched_order float,
            (o_restaurant_id (o e) = None → r e = None)
            ∧ (∀ x, r e = Some x → r_restaurant_id x ≠ None))
         (orders_enriched
            (orders (H := Sample.float64) Sample.anonymous_orders)
            Sample.restaurants_with_unnamed).
Proof.
  apply list.Forall_forall. intros e He.
  exact (null_restaurant_id_never_joins _ _ e He).
Defined.


Lemma gold_row_origin_witness :
  Forall (λ m : metric float,
            ∃ row, row ∈ Sample.mixed_day
                   ∧ raw_status row = Some "DELIVERED"%string
                   ∧ m_restaurant_id m = raw_restaurant_id row
                   ∧ m_city m = raw_city row)
         (gold_rows (run (H := Sample.float64) Sample.mixed_day
                         Sample.restaurants Sample.empty)).
Proof.
  apply list.Forall_forall. intros m Hm.
  destruct (gold_row_origin _ _ _ m Hm)
    as (row & Hrow & Hst & _ & Hid & Hcity & _).
  exists row. split; [exact Hrow|]. split; [exact Hst|].
  split; [exact Hid | exact Hcity].
Defined.


Lemma gmv_null_iff_witness :
  Forall (λ m : metric float,
            gmv m = None
            ↔ ∀ e, e ∈ group_of m
                         (enrich (ingest_normalize (H := Sample.float64)
                                    Sample.mixed_day Sample.restaurants
                                    Sample.empty)) →
                   order_value (o e) = None)
         (gold_rows (run (H := Sample.float64) Sample.mixed_day
                         Sample.restaurants Sample.empty)).
Proof.
  apply list.Forall_forall. intros m Hm.
  exact (gmv_null_iff _ _ _ m Hm).
Defined.

